(** * see-my-model: the anomaly criteria of the dashboard's [handlePredict]

  A shallow embedding of [src/components/MLDashboard.tsx]: the component
  state, the ten threshold checks that fill [triggeredFactors], the mock
  prediction built from them, and the properties of the resulting
  [triggered_factors] list and [anomaly_flag].

  Then the page around the handler (the six inputs, the two buttons, the
  awaited timer and the results card) and the embedding-vector version of
  the component, with what they do and never do. *)

From Stdlib Require Import Bool List String Ascii Arith NArith ZArith Lia FinFun.
From Stdlib Require Import Floats.
Import ListNotations.

Set Warnings "-inexact-float".
Local Open Scope string_scope.

(** ** The fragment of JavaScript the component uses *)

Module JS.

(** A JavaScript [number] is an IEEE 754 binary64 value. *)
Abbreviation number := float (only parsing).

(** [x > y] and [x < y] on numbers: the IEEE comparison, false as soon as
    one side is NaN. *)
Definition gt (x y : number) : bool := PrimFloat.ltb y x.
Definition lt (x y : number) : bool := PrimFloat.ltb x y.
Arguments gt (x y)%_float.
Arguments lt (x y)%_float.

(** [s === t] on strings. *)
Definition strict_eq (s t : string) : bool := String.eqb s t.

(** [arr.push(x)]: the array with [x] appended at its end. *)
Definition push {A : Type} (arr : list A) (x : A) : list A := arr ++ [x].

(** What can be thrown: an [Error] with its message, or any other value. *)
Inductive thrown : Type :=
| Error (message : string)
| NotAnError.

(** What a block of statements ends with: it runs to its end, or a value is
    thrown out of it. *)
Inductive completion (A : Type) : Type :=
| Normal (value : A)
| Throw (error : thrown).
Arguments Normal {A} value.
Arguments Throw {A} error.

End JS.

Declare Scope js_scope.
Delimit Scope js_scope with js.
Infix ">" := JS.gt : js_scope.
Infix "<" := JS.lt : js_scope.
Infix "===" := JS.strict_eq (at level 70, no associativity) : js_scope.

(** ** The component *)

Module MLDashboard.

Import JS.

(** The interface [PredictionResult]; its field [prediction] is
    [prediction_label] here, the state cell below having the same name. *)
Record PredictionResult : Type := {
  probability : number;
  prediction_label : string;
  confidence : number;
  anomaly_flag : bool;
  triggered_factors : list string
}.

Record AnomalyFactors : Type := {
  deviation_score : number;
  time_since_last_activity : number;
  signal_status : string;
  altitude_change : number;
  heart_rate : number;
  oxygen_saturation : number;
  body_temperature : number;
  fall_detected : bool
}.

(** The [useState] cells of the component that [handlePredict] reads or
    writes. *)
Record State : Type := {
  factors : AnomalyFactors;
  prediction : option PredictionResult;
  isLoading : bool
}.

(** The notifications sent through [toast]. *)
Inductive Toast : Type :=
| toast_success (msg : string)
| toast_error (msg : string).

(** The initial value of every state cell. *)
Definition defaultFactors : AnomalyFactors := {|
  deviation_score := 0;
  time_since_last_activity := 0;
  signal_status := "normal";
  altitude_change := 0;
  heart_rate := 70;
  oxygen_saturation := 98;
  body_temperature := 36.5;
  fall_detected := false
|}.

Definition initialState : State := {|
  factors := defaultFactors;
  prediction := None;
  isLoading := false
|}.

Definition setFactors (st : State) (f : AnomalyFactors) : State :=
  {| factors := f; prediction := prediction st; isLoading := isLoading st |}.

Definition setPrediction (st : State) (p : option PredictionResult) : State :=
  {| factors := factors st; prediction := p; isLoading := isLoading st |}.

Definition setIsLoading (st : State) (b : bool) : State :=
  {| factors := factors st; prediction := prediction st; isLoading := b |}.

(** The object spreads [{...factors, field: v}] of the input handlers. *)
Definition with_deviation_score (f : AnomalyFactors) (v : number) :=
  {| deviation_score := v;
     time_since_last_activity := time_since_last_activity f;
     signal_status := signal_status f;
     altitude_change := altitude_change f;
     heart_rate := heart_rate f;
     oxygen_saturation := oxygen_saturation f;
     body_temperature := body_temperature f;
     fall_detected := fall_detected f |}.

Definition with_time_since_last_activity (f : AnomalyFactors) (v : number) :=
  {| deviation_score := deviation_score f;
     time_since_last_activity := v;
     signal_status := signal_status f;
     altitude_change := altitude_change f;
     heart_rate := heart_rate f;
     oxygen_saturation := oxygen_saturation f;
     body_temperature := body_temperature f;
     fall_detected := fall_detected f |}.

Definition with_signal_status (f : AnomalyFactors) (v : string) :=
  {| deviation_score := deviation_score f;
     time_since_last_activity := time_since_last_activity f;
     signal_status := v;
     altitude_change := altitude_change f;
     heart_rate := heart_rate f;
     oxygen_saturation := oxygen_saturation f;
     body_temperature := body_temperature f;
     fall_detected := fall_detected f |}.

Definition with_altitude_change (f : AnomalyFactors) (v : number) :=
  {| deviation_score := deviation_score f;
     time_since_last_activity := time_since_last_activity f;
     signal_status := signal_status f;
     altitude_change := v;
     heart_rate := heart_rate f;
     oxygen_saturation := oxygen_saturation f;
     body_temperature := body_temperature f;
     fall_detected := fall_detected f |}.

Definition with_heart_rate (f : AnomalyFactors) (v : number) :=
  {| deviation_score := deviation_score f;
     time_since_last_activity := time_since_last_activity f;
     signal_status := signal_status f;
     altitude_change := altitude_change f;
     heart_rate := v;
     oxygen_saturation := oxygen_saturation f;
     body_temperature := body_temperature f;
     fall_detected := fall_detected f |}.

Definition with_oxygen_saturation (f : AnomalyFactors) (v : number) :=
  {| deviation_score := deviation_score f;
     time_since_last_activity := time_since_last_activity f;
     signal_status := signal_status f;
     altitude_change := altitude_change f;
     heart_rate := heart_rate f;
     oxygen_saturation := v;
     body_temperature := body_temperature f;
     fall_detected := fall_detected f |}.

Definition with_body_temperature (f : AnomalyFactors) (v : number) :=
  {| deviation_score := deviation_score f;
     time_since_last_activity := time_since_last_activity f;
     signal_status := signal_status f;
     altitude_change := altitude_change f;
     heart_rate := heart_rate f;
     oxygen_saturation := oxygen_saturation f;
     body_temperature := v;
     fall_detected := fall_detected f |}.

Definition with_fall_detected (f : AnomalyFactors) (v : bool) :=
  {| deviation_score := deviation_score f;
     time_since_last_activity := time_since_last_activity f;
     signal_status := signal_status f;
     altitude_change := altitude_change f;
     heart_rate := heart_rate f;
     oxygen_saturation := oxygen_saturation f;
     body_temperature := body_temperature f;
     fall_detected := v |}.

(** Lines 56 to 67, "Check anomaly criteria": a fresh array, then ten
    conditional [push]es, each [let] rebinding the array as the statement
    leaves it. *)
Definition checkAnomalyCriteria (factors : AnomalyFactors) : list string :=
  let triggeredFactors : list string := [] in
  let triggeredFactors :=
    if (deviation_score factors > 200)%js
    then push triggeredFactors "Route deviation" else triggeredFactors in
  let triggeredFactors :=
    if (time_since_last_activity factors > 30)%js
    then push triggeredFactors "Prolonged inactivity" else triggeredFactors in
  let triggeredFactors :=
    if (signal_status factors === "silent")%js
       && (time_since_last_activity factors > 20)%js
    then push triggeredFactors "Silent behavior" else triggeredFactors in
  let triggeredFactors :=
    if (signal_status factors === "missing")%js
    then push triggeredFactors "Missing signal" else triggeredFactors in
  let triggeredFactors :=
    if (signal_status factors === "distress")%js
    then push triggeredFactors "Distress signal" else triggeredFactors in
  let triggeredFactors :=
    if (altitude_change factors < -15)%js
    then push triggeredFactors "Sudden altitude drop" else triggeredFactors in
  let triggeredFactors :=
    if (heart_rate factors < 45)%js || (heart_rate factors > 150)%js
    then push triggeredFactors "Heart rate anomaly" else triggeredFactors in
  let triggeredFactors :=
    if (oxygen_saturation factors < 90)%js
    then push triggeredFactors "Oxygen anomaly" else triggeredFactors in
  let triggeredFactors :=
    if (body_temperature factors > 38.5)%js
    then push triggeredFactors "Temperature anomaly" else triggeredFactors in
  let triggeredFactors :=
    if fall_detected factors
    then push triggeredFactors "Fall detected" else triggeredFactors in
  triggeredFactors.

(** The body of the [try] block, from the state it starts in to the state
    and the toasts it ends with. [random] is the value of the one call of
    [Math.random()] that the conditional expression makes; the awaited
    two-second timer changes nothing that is modelled. No statement of the
    block throws. *)
Definition tryBlock (st : State) (random : number)
  : completion (State * list Toast) :=
  let triggeredFactors := checkAnomalyCriteria (factors st) in
  let anomaly_flag := Nat.ltb 0 (List.length triggeredFactors) in
  let mockProbability :=
    if anomaly_flag then (0.85 + random * 0.15)%float
    else (0.15 + random * 0.3)%float in
  let st := setPrediction st (Some {|
    probability := mockProbability;
    prediction_label :=
      if anomaly_flag then "Anomaly Detected" else "Normal Behavior";
    confidence := mockProbability;
    anomaly_flag := anomaly_flag;
    triggered_factors := triggeredFactors
  |}) in
  Normal (st, [toast_success "Prediction completed successfully!"]).

(** [handlePredict], with its [catch] and [finally] blocks: the state after
    the handler ran, and the toasts it sent. *)
Definition handlePredict (st : State) (random : number) : State * list Toast :=
  let st := setIsLoading st true in
  let '(st, toasts) :=
    match tryBlock st random with
    | Normal out => out
    | Throw error =>
        (st, [toast_error match error with
                          | Error message => message
                          | NotAnError => "Prediction failed"
                          end])
    end in
  (setIsLoading st false, toasts).

Definition loadSampleData (st : State) : State * list Toast :=
  (setFactors st {|
     deviation_score := 250;
     time_since_last_activity := 35;
     signal_status := "silent";
     altitude_change := -20;
     heart_rate := 160;
     oxygen_saturation := 85;
     body_temperature := 39.2;
     fall_detected := true
   |},
   [toast_success "Sample anomaly data loaded"]).

End MLDashboard.

(** ** The rule table of the specification *)

Module Spec.

Import JS MLDashboard.

(** The ten rules, named after their labels. *)
Inductive Rule : Type :=
| RouteDeviation
| ProlongedInactivity
| SilentBehavior
| MissingSignal
| DistressSignal
| SuddenAltitudeDrop
| HeartRateAnomaly
| OxygenAnomaly
| TemperatureAnomaly
| FallDetected.

(** The rows of the table, by their "Order" column. *)
Definition rules : list Rule :=
  [RouteDeviation; ProlongedInactivity; SilentBehavior; MissingSignal;
   DistressSignal; SuddenAltitudeDrop; HeartRateAnomaly; OxygenAnomaly;
   TemperatureAnomaly; FallDetected].

(** The "Label" column. *)
Definition label (r : Rule) : string :=
  match r with
  | RouteDeviation => "Route deviation"
  | ProlongedInactivity => "Prolonged inactivity"
  | SilentBehavior => "Silent behavior"
  | MissingSignal => "Missing signal"
  | DistressSignal => "Distress signal"
  | SuddenAltitudeDrop => "Sudden altitude drop"
  | HeartRateAnomaly => "Heart rate anomaly"
  | OxygenAnomaly => "Oxygen anomaly"
  | TemperatureAnomaly => "Temperature anomaly"
  | FallDetected => "Fall detected"
  end.

(** The "Predicate" column, as a proposition about the input record. *)
Definition holds (f : AnomalyFactors) (r : Rule) : Prop :=
  match r with
  | RouteDeviation => (deviation_score f > 200)%js = true
  | ProlongedInactivity => (time_since_last_activity f > 30)%js = true
  | SilentBehavior =>
      signal_status f = "silent"
      /\ (time_since_last_activity f > 20)%js = true
  | MissingSignal => signal_status f = "missing"
  | DistressSignal => signal_status f = "distress"
  | SuddenAltitudeDrop => (altitude_change f < -15)%js = true
  | HeartRateAnomaly =>
      (heart_rate f < 45)%js = true \/ (heart_rate f > 150)%js = true
  | OxygenAnomaly => (oxygen_saturation f < 90)%js = true
  | TemperatureAnomaly => (body_temperature f > 38.5)%js = true
  | FallDetected => fall_detected f = true
  end.

(** The same column as a test. *)
Definition fires (f : AnomalyFactors) (r : Rule) : bool :=
  match r with
  | RouteDeviation => (deviation_score f > 200)%js
  | ProlongedInactivity => (time_since_last_activity f > 30)%js
  | SilentBehavior =>
      String.eqb (signal_status f) "silent"
      && (time_since_last_activity f > 20)%js
  | MissingSignal => String.eqb (signal_status f) "missing"
  | DistressSignal => String.eqb (signal_status f) "distress"
  | SuddenAltitudeDrop => (altitude_change f < -15)%js
  | HeartRateAnomaly => (heart_rate f < 45)%js || (heart_rate f > 150)%js
  | OxygenAnomaly => (oxygen_saturation f < 90)%js
  | TemperatureAnomaly => (body_temperature f > 38.5)%js
  | FallDetected => fall_detected f
  end.

(** "A rule contributes its label once if its predicate holds, and
    contributes nothing otherwise", rule after rule in table order. *)
Definition triggered (f : AnomalyFactors) : list string :=
  map label (filter (fires f) rules).

(** The three rules that test [signalStatus], and the test for their
    labels. *)
Definition signal_labels : list string :=
  [label SilentBehavior; label MissingSignal; label DistressSignal].

Definition is_signal_label (l : string) : bool :=
  existsb (String.eqb l) signal_labels.

(** The output record of the specification's data model. *)
Record EvaluationResult : Type := {
  triggeredFactors : list string;
  anomalyFlag : bool
}.

(** The Evaluator as the code has it: the two fields of the prediction that
    [handlePredict] stores which the specification calls the evaluation
    result; [None] if the handler stored no prediction. *)
Definition Evaluator (st : State) (random : number) : option EvaluationResult :=
  match prediction (fst (handlePredict st random)) with
  | Some r =>
      Some {| triggeredFactors := triggered_factors r;
              anomalyFlag := anomaly_flag r |}
  | None => None
  end.

(** The records of the boundary contract: the default factors with one
    field at its threshold, ... *)
Definition boundaryRecords : list AnomalyFactors :=
  [with_deviation_score defaultFactors 200;
   with_time_since_last_activity defaultFactors 30;
   with_altitude_change defaultFactors (-15);
   with_heart_rate defaultFactors 45;
   with_heart_rate defaultFactors 150;
   with_oxygen_saturation defaultFactors 90;
   with_body_temperature defaultFactors 38.5].

(** ... and the record with every field at its threshold, for either
    threshold of the heart rate. *)
Definition allBoundaries (heartRate : number) : AnomalyFactors := {|
  deviation_score := 200;
  time_since_last_activity := 30;
  signal_status := "normal";
  altitude_change := -15;
  heart_rate := heartRate;
  oxygen_saturation := 90;
  body_temperature := 38.5;
  fall_detected := false
|}.

(** One record per rule on which that rule alone holds. *)
Definition isolating (r : Rule) : AnomalyFactors :=
  match r with
  | RouteDeviation => with_deviation_score defaultFactors 201
  | ProlongedInactivity => with_time_since_last_activity defaultFactors 31
  | SilentBehavior =>
      with_time_since_last_activity
        (with_signal_status defaultFactors "silent") 25
  | MissingSignal => with_signal_status defaultFactors "missing"
  | DistressSignal => with_signal_status defaultFactors "distress"
  | SuddenAltitudeDrop => with_altitude_change defaultFactors (-16)
  | HeartRateAnomaly => with_heart_rate defaultFactors 40
  | OxygenAnomaly => with_oxygen_saturation defaultFactors (-5)
  | TemperatureAnomaly => with_body_temperature defaultFactors 38.6
  | FallDetected => with_fall_detected defaultFactors true
  end.

End Spec.

(** ** The page: the form's handlers, the awaited timer and what is
    rendered *)

Module Page.

Import JS MLDashboard.

(** The six [Input]s of the form. There is none for [signal_status] and
    none for [fall_detected]. *)
Inductive Field : Type :=
| Deviation
| Inactivity
| HeartRate
| Oxygen
| Temperature
| Altitude.

(** The object an input's [onChange] handler builds,
    [{...factors, field: value}]. *)
Definition update (fld : Field) (f : AnomalyFactors) (value : number)
  : AnomalyFactors :=
  match fld with
  | Deviation => with_deviation_score f value
  | Inactivity => with_time_since_last_activity f value
  | HeartRate => with_heart_rate f value
  | Oxygen => with_oxygen_saturation f value
  | Temperature => with_body_temperature f value
  | Altitude => with_altitude_change f value
  end.

(** The [onChange] handler of an input; [value] is
    [Number(e.target.value)]. *)
Definition onChange (fld : Field) (st : State) (value : number) : State :=
  setFactors st (update fld (factors st) value).

(** The labels of the rules that read the field of an input. *)
Definition labels_read (fld : Field) : list string :=
  match fld with
  | Deviation => ["Route deviation"]
  | Inactivity => ["Prolonged inactivity"; "Silent behavior"]
  | HeartRate => ["Heart rate anomaly"]
  | Oxygen => ["Oxygen anomaly"]
  | Temperature => ["Temperature anomaly"]
  | Altitude => ["Sudden altitude drop"]
  end.

Definition reads (fld : Field) (l : string) : bool :=
  existsb (String.eqb l) (labels_read fld).

(** The field that an input shows and edits. *)
Definition field_value (fld : Field) (f : AnomalyFactors) : number :=
  match fld with
  | Deviation => deviation_score f
  | Inactivity => time_since_last_activity f
  | HeartRate => heart_rate f
  | Oxygen => oxygen_saturation f
  | Temperature => body_temperature f
  | Altitude => altitude_change f
  end.

(** [later] lies further than [earlier] on the side of the threshold that
    the field's rules test: higher for the deviation, the inactivity and the
    temperature, lower for the oxygen and the altitude change, and for the
    heart rate lower when [earlier] is under 45 and higher otherwise. *)
Definition more_extreme (fld : Field) (earlier later : number) : bool :=
  match fld with
  | Deviation | Inactivity | Temperature => (earlier < later)%js
  | Oxygen | Altitude => (later < earlier)%js
  | HeartRate =>
      if (earlier < 45)%js then (later < earlier)%js
      else (earlier < later)%js
  end.

(** [handlePredict] up to its [await]: the loading flag is set and the
    criteria are checked on the factors of the moment; the call is then
    suspended with its local array. *)
Definition handlePredict_suspend (st : State) : State * list string :=
  let st := setIsLoading st true in
  (st, checkAnomalyCriteria (factors st)).

(** The rest of the [try] block, run when the timer ends, on the state of
    that moment. *)
Definition tryBlock_resume
  (st : State) (triggeredFactors : list string) (random : number)
  : completion (State * list Toast) :=
  let anomaly_flag := Nat.ltb 0 (List.length triggeredFactors) in
  let mockProbability :=
    if anomaly_flag then (0.85 + random * 0.15)%float
    else (0.15 + random * 0.3)%float in
  let st := setPrediction st (Some {|
    probability := mockProbability;
    prediction_label :=
      if anomaly_flag then "Anomaly Detected" else "Normal Behavior";
    confidence := mockProbability;
    anomaly_flag := anomaly_flag;
    triggered_factors := triggeredFactors
  |}) in
  Normal (st, [toast_success "Prediction completed successfully!"]).

(** [handlePredict] from its [await] on, with [catch] and [finally]. *)
Definition handlePredict_resume
  (st : State) (triggeredFactors : list string) (random : number)
  : State * list Toast :=
  let '(st, toasts) :=
    match tryBlock_resume st triggeredFactors random with
    | Normal out => out
    | Throw error =>
        (st, [toast_error match error with
                          | Error message => message
                          | NotAnError => "Prediction failed"
                          end])
    end in
  (setIsLoading st false, toasts).

(** The page between two events: the state cells, the suspended calls of
    [handlePredict] (oldest first, each with its local [triggeredFactors])
    and the toasts sent so far. *)
Record Page : Type := {
  cells : State;
  suspended : list (list string);
  toasts : list Toast
}.

Definition initialPage : Page :=
  {| cells := initialState; suspended := []; toasts := [] |}.

(** What happens to the page: an input changes, one of the two buttons is
    clicked, or the two-second timer of the oldest suspended call ends
    ([random] is what [Math.random()] then returns). *)
Inductive Event : Type :=
| Change (fld : Field) (value : number)
| ClickLoadSample
| ClickPredict
| TimerEnds (random : number).

(** One event. The "Detect Anomaly" button is [disabled={isLoading}]: a
    click on it while the flag is set reaches no handler. *)
Definition step (pg : Page) (ev : Event) : Page :=
  match ev with
  | Change fld value =>
      {| cells := onChange fld (cells pg) value;
         suspended := suspended pg;
         toasts := toasts pg |}
  | ClickLoadSample =>
      let '(st, sent) := loadSampleData (cells pg) in
      {| cells := st; suspended := suspended pg;
         toasts := toasts pg ++ sent |}
  | ClickPredict =>
      if isLoading (cells pg) then pg
      else
        let '(st, triggeredFactors) := handlePredict_suspend (cells pg) in
        {| cells := st;
           suspended := suspended pg ++ [triggeredFactors];
           toasts := toasts pg |}
  | TimerEnds random =>
      match suspended pg with
      | [] => pg
      | triggeredFactors :: rest =>
          let '(st, sent) :=
            handlePredict_resume (cells pg) triggeredFactors random in
          {| cells := st; suspended := rest; toasts := toasts pg ++ sent |}
      end
  end.

Definition run (pg : Page) (events : list Event) : Page :=
  fold_left step events pg.

(** The part of the "Prediction Results" card that depends on the stored
    prediction: the headline, the class of the confidence badge and, when
    there are triggered factors, their badges with their [key]s. *)
Record ResultsView : Type := {
  headline : string;
  badgeClass : string;
  factorBadges : option (list (nat * string))
}.

(** [arr.map((factor, index) => ...)]: every element with its index. *)
Definition mapi_from {A : Type} (start : nat) (arr : list A) : list (nat * A) :=
  combine (seq start (List.length arr)) arr.

Definition renderResults (p : PredictionResult) : ResultsView := {|
  headline := prediction_label p;
  badgeClass :=
    "text-white " ++ (if anomaly_flag p then "bg-ml-error" else "bg-ml-success");
  factorBadges :=
    if Nat.ltb 0 (List.length (triggered_factors p))
    then Some (mapi_from 0 (triggered_factors p))
    else None
|}.

(** What is rendered from the state: the "Detect Anomaly" button and the
    results card ([None]: "Run a prediction to see results"). *)
Record View : Type := {
  predictDisabled : bool;
  predictText : string;
  results : option ResultsView
}.

Definition render (st : State) : View := {|
  predictDisabled := isLoading st;
  predictText := if isLoading st then "Analyzing..." else "Detect Anomaly";
  results :=
    match prediction st with
    | Some p => Some (renderResults p)
    | None => None
    end
|}.

Definition is_timer (ev : Event) : bool :=
  match ev with
  | TimerEnds _ => true
  | _ => false
  end.

(** The two toasts that the handlers of this version send on success. *)
Definition success_toast (t : Toast) : Prop :=
  t = toast_success "Prediction completed successfully!"
  \/ t = toast_success "Sample anomaly data loaded".

(** The two states of the pair of fields that no input edits: as
    initialised, and as [loadSampleData] leaves them. *)
Definition initial_fields (f : AnomalyFactors) : Prop :=
  signal_status f = "normal" /\ fall_detected f = false.

Definition sample_fields (f : AnomalyFactors) : Prop :=
  signal_status f = "silent" /\ fall_detected f = true.

Definition untouched_fields (f : AnomalyFactors) : Prop :=
  initial_fields f \/ sample_fields f.

(** An array that the criteria give on factors with the property [P]. *)
Definition checked_on (P : AnomalyFactors -> Prop) (tf : list string) : Prop :=
  exists f, P f /\ tf = checkAnomalyCriteria f.

(** [P] holds of the factors, and of those that every stored or suspended
    array of triggered factors was computed from. *)
Definition factors_invariant (P : AnomalyFactors -> Prop) (pg : Page) : Prop :=
  P (factors (cells pg))
  /\ match prediction (cells pg) with
     | Some p => checked_on P (triggered_factors p)
     | None => True
     end
  /\ Forall (checked_on P) (suspended pg).

(** The fields of a prediction agree with each other. *)
Definition well_formed (p : PredictionResult) : Prop :=
  anomaly_flag p = Nat.ltb 0 (List.length (triggered_factors p))
  /\ prediction_label p
     = (if anomaly_flag p then "Anomaly Detected" else "Normal Behavior")
  /\ confidence p = probability p.

(** The invariant of the page. *)
Definition invariant (pg : Page) : Prop :=
  factors_invariant untouched_fields pg
  /\ match prediction (cells pg) with
     | Some p => well_formed p
     | None => True
     end
  /\ List.length (suspended pg) <= 1
  /\ isLoading (cells pg) = Nat.ltb 0 (List.length (suspended pg)).

End Page.

(** ** Strings of the embedding-vector version of the component *)

Module JSString.

(** A JavaScript string, as the sequence of its UTF-16 code units. *)
Definition text : Type := list N.

(** The code units of a literal written in ASCII. *)
Definition literal (s : string) : text :=
  map (fun c => N_of_ascii c) (list_ascii_of_string s).

(** The code units that [trim] removes: ECMAScript's WhiteSpace and
    LineTerminator. *)
Definition is_whitespace (c : N) : bool :=
  existsb (N.eqb c)
    [0x0009; 0x000A; 0x000B; 0x000C; 0x000D; 0x0020; 0x00A0; 0x1680;
     0x2000; 0x2001; 0x2002; 0x2003; 0x2004; 0x2005; 0x2006; 0x2007;
     0x2008; 0x2009; 0x200A; 0x2028; 0x2029; 0x202F; 0x205F; 0x3000;
     0xFEFF]%N.

Fixpoint trimStart (s : text) : text :=
  match s with
  | [] => []
  | c :: rest => if is_whitespace c then trimStart rest else s
  end.

Definition trimEnd (s : text) : text := rev (trimStart (rev s)).

(** [s.trim()]. *)
Definition trim (s : text) : text := trimEnd (trimStart s).

(** [s.split(sep)] for a separator of one code unit: the pieces between
    the separators, one piece (the empty one) for the empty string. *)
Fixpoint split (sep : N) (s : text) : list text :=
  match s with
  | [] => [[]]
  | c :: rest =>
      if N.eqb c sep then [] :: split sep rest
      else
        match split sep rest with
        | piece :: pieces => (c :: piece) :: pieces
        | [] => [[c]]
        end
  end.

(** [pieces.join(sep)]. *)
Fixpoint join (sep : text) (pieces : list text) : text :=
  match pieces with
  | [] => []
  | piece :: rest =>
      match rest with
      | [] => piece
      | _ :: _ => (piece ++ sep ++ join sep rest)%list
      end
  end.

(** [isNaN(x)] on a number. *)
Definition isNaN (x : float) : bool := PrimFloat.is_nan x.

(** The code unit of the comma. *)
Definition comma : N := 44%N.

End JSString.

(** ** The embedding-vector version of the component (the second source
    file) *)

Module EmbeddingDashboard.

Import JS JSString.

Record PredictionResult : Type := {
  probability : number;
  prediction_label : string;
  confidence : number
}.

(** The [useState] cells that the handlers read or write. *)
Record State : Type := {
  embeddings : text;
  prediction : option PredictionResult;
  isLoading : bool
}.

Definition initialState : State :=
  {| embeddings := []; prediction := None; isLoading := false |}.

Definition setEmbeddings (st : State) (s : text) : State :=
  {| embeddings := s; prediction := prediction st; isLoading := isLoading st |}.

Definition setPrediction (st : State) (p : option PredictionResult) : State :=
  {| embeddings := embeddings st; prediction := p; isLoading := isLoading st |}.

Definition setIsLoading (st : State) (b : bool) : State :=
  {| embeddings := embeddings st; prediction := prediction st; isLoading := b |}.

Definition pleaseEnter : string := "Please enter embedding values".

Definition invalidFormat : string :=
  "Invalid embedding format. Please use comma-separated numbers.".

Definition completed : string := "Prediction completed successfully!".

Section Builtins.

(** The two library functions that are taken as they are: [parseFloat] on
    a string, and [x.toFixed(digits)]. *)
Variable parseFloat : text -> number.
Variable toFixed : number -> nat -> text.

(** The array [embeddings.split(',').map(val => parseFloat(val.trim()))]. *)
Definition embeddingArray (s : text) : list number :=
  map (fun val => parseFloat (trim val)) (split comma s).

(** The body of the [try] block. *)
Definition tryBlock (st : State) (random : number)
  : completion (State * list MLDashboard.Toast) :=
  let embeddingArray := embeddingArray (embeddings st) in
  if existsb isNaN embeddingArray then Throw (Error invalidFormat)
  else
    let mockProbability := (0.75 + random * 0.2)%float in
    let mockPrediction :=
      if (mockProbability > 0.5)%js then "Positive" else "Negative" in
    let st := setPrediction st (Some {|
      probability := mockProbability;
      prediction_label := mockPrediction;
      confidence := mockProbability
    |}) in
    Normal (st, [MLDashboard.toast_success completed]).

(** [handlePredict]: the early return on a blank input, then the [try]
    block with its [catch] and [finally]. *)
Definition handlePredict (st : State) (random : number)
  : State * list MLDashboard.Toast :=
  match trim (embeddings st) with
  | [] => (st, [MLDashboard.toast_error pleaseEnter])
  | _ :: _ =>
      let st := setIsLoading st true in
      let '(st, sent) :=
        match tryBlock st random with
        | Normal out => out
        | Throw error =>
            (st, [MLDashboard.toast_error
                    match error with
                    | Error message => message
                    | NotAnError => "Prediction failed"
                    end])
        end in
      (setIsLoading st false, sent)
  end.

(** [loadSampleData]; [randoms i] is what the [i]-th of the ten calls of
    [Math.random()] returns. *)
Definition sampleEmbeddings (randoms : nat -> number) : text :=
  join (literal ", ")
    (map (fun i => toFixed (randoms i * 2 - 1)%float 4) (seq 0 10)).

Definition loadSampleData (st : State) (randoms : nat -> number)
  : State * list MLDashboard.Toast :=
  (setEmbeddings st (sampleEmbeddings randoms),
   [MLDashboard.toast_success "Sample embedding data loaded"]).

(** An input that [handlePredict] accepts: it is not blank and every piece
    between its commas parses to a number. *)
Definition blank (s : text) : bool := forallb is_whitespace s.

Definition accepted (s : text) : bool :=
  negb (blank s) && forallb (fun x => negb (isNaN x)) (embeddingArray s).

End Builtins.

End EmbeddingDashboard.

Import JS MLDashboard.

(** ** Facts about the rule table *)

Section RuleTable.

Import Spec.

Lemma fires_holds (f : AnomalyFactors) (r : Rule) :
  fires f r = true <-> holds f r.
Proof.
  destruct r; simpl; try reflexivity.
  - rewrite andb_true_iff, String.eqb_eq. reflexivity.
  - apply String.eqb_eq.
  - apply String.eqb_eq.
  - apply orb_true_iff.
Qed.

Lemma rules_complete (r : Rule) : In r rules.
Proof. destruct r; simpl; tauto. Qed.

Lemma label_injective (r r' : Rule) : label r = label r' -> r = r'.
Proof. destruct r, r'; simpl; intros E; solve [reflexivity | discriminate E]. Qed.

Lemma rules_NoDup : NoDup rules.
Proof.
  unfold rules.
  repeat (constructor; [simpl; intuition discriminate|]).
  constructor.
Qed.

Lemma in_triggered (f : AnomalyFactors) (r : Rule) :
  In (label r) (triggered f) <-> fires f r = true.
Proof.
  unfold triggered. rewrite in_map_iff. split.
  - intros (r' & E & Hin). apply label_injective in E. subst r'.
    apply filter_In in Hin. apply Hin.
  - intros Hf. exists r. split; [reflexivity|].
    apply filter_In. split; [apply rules_complete | exact Hf].
Qed.

Lemma triggered_NoDup (f : AnomalyFactors) : NoDup (triggered f).
Proof.
  unfold triggered. apply Injective_map_NoDup.
  - intros r r'. apply label_injective.
  - apply NoDup_filter, rules_NoDup.
Qed.

Lemma triggered_length (f : AnomalyFactors) : List.length (triggered f) <= 10.
Proof.
  unfold triggered. rewrite length_map.
  apply (Nat.le_trans _ _ _ (filter_length_le _ _)). reflexivity.
Qed.

(** The handler's ten statements compute the table's result. *)
Lemma checkAnomalyCriteria_triggered (f : AnomalyFactors) :
  checkAnomalyCriteria f = triggered f.
Proof.
  unfold checkAnomalyCriteria, triggered, strict_eq.
  cbn [rules filter map fires label].
  generalize (deviation_score f > 200)%js
             (time_since_last_activity f > 30)%js
             (String.eqb (signal_status f) "silent"
              && (time_since_last_activity f > 20)%js)
             (String.eqb (signal_status f) "missing")
             (String.eqb (signal_status f) "distress")
             (altitude_change f < -15)%js
             ((heart_rate f < 45)%js || (heart_rate f > 150)%js)
             (oxygen_saturation f < 90)%js
             (body_temperature f > 38.5)%js
             (fall_detected f).
  intros b1 b2 b3 b4 b5 b6 b7 b8 b9 b10.
  destruct b1, b2, b3, b4, b5, b6, b7, b8, b9, b10; reflexivity.
Qed.

End RuleTable.

(** ** What the handler leaves behind *)

Section Handler.

Import Spec.

Lemma tryBlock_normal (st : State) (random : number) :
  exists r,
    tryBlock st random
    = Normal (setPrediction st (Some r),
              [toast_success "Prediction completed successfully!"])
    /\ triggered_factors r = checkAnomalyCriteria (factors st)
    /\ anomaly_flag r
       = Nat.ltb 0 (List.length (checkAnomalyCriteria (factors st))).
Proof. unfold tryBlock. eexists. repeat split. Qed.

Lemma handlePredict_toasts (st : State) (random : number) :
  snd (handlePredict st random)
  = [toast_success "Prediction completed successfully!"].
Proof. reflexivity. Qed.

Lemma handlePredict_state (st : State) (random : number) :
  exists r,
    fst (handlePredict st random)
    = {| factors := factors st; prediction := Some r; isLoading := false |}
    /\ triggered_factors r = checkAnomalyCriteria (factors st).
Proof. unfold handlePredict, tryBlock. eexists. split; reflexivity. Qed.

(** A field that is not a number (NaN, what [Number] makes of text that is
    no numeral) passes every comparison as false. *)
Lemma nan_fires_nothing :
  checkAnomalyCriteria
    {| deviation_score := nan; time_since_last_activity := nan;
       signal_status := "silent"; altitude_change := nan;
       heart_rate := nan; oxygen_saturation := nan;
       body_temperature := nan; fall_detected := false |}
  = [].
Proof. reflexivity. Qed.

Lemma Evaluator_eq (st : State) (random : number) :
  Evaluator st random
  = Some {| triggeredFactors := checkAnomalyCriteria (factors st);
            anomalyFlag :=
              Nat.ltb 0 (List.length (checkAnomalyCriteria (factors st))) |}.
Proof. reflexivity. Qed.

Lemma flag_nonempty (l : list string) :
  Nat.ltb 0 (List.length l) = true <-> l <> [].
Proof.
  destruct l as [|x l]; simpl.
  - split; [discriminate | intros H; now elim H].
  - split; [discriminate | reflexivity].
Qed.

Lemma in_checkAnomalyCriteria (f : AnomalyFactors) (r : Rule) :
  In (label r) (checkAnomalyCriteria f) <-> holds f r.
Proof.
  rewrite checkAnomalyCriteria_triggered, in_triggered. apply fires_holds.
Qed.

End Handler.

(** ** The rules and their labels (claims C1, C9, C10) *)

Section Labels.

Import Spec.

Lemma mem_In (l : string) (ls : list string) :
  existsb (String.eqb l) ls = true <-> In l ls.
Proof.
  rewrite existsb_exists. split.
  - intros (x & Hin & E). apply String.eqb_eq in E. now subst x.
  - intros Hin. exists l. split; [exact Hin | apply String.eqb_refl].
Qed.

Lemma filter_twice {A : Type} (p q : A -> bool) (l : list A) :
  filter q (filter p l) = filter (fun x => q x && p x) l.
Proof.
  induction l as [|x l IH]; simpl; [reflexivity|].
  destruct (p x); simpl.
  - rewrite andb_true_r. destruct (q x); now rewrite IH.
  - now rewrite andb_false_r.
Qed.

Lemma signal_count (f : AnomalyFactors) :
  List.length (filter is_signal_label (triggered f))
  = Nat.b2n (fires f SilentBehavior) + Nat.b2n (fires f MissingSignal)
    + Nat.b2n (fires f DistressSignal).
Proof.
  unfold triggered.
  rewrite filter_map_swap, length_map, filter_twice.
  cbn -[fires].
  destruct (fires f SilentBehavior), (fires f MissingSignal),
    (fires f DistressSignal); reflexivity.
Qed.

Lemma signal_rules_exclusive (f : AnomalyFactors) (r r' : Rule) :
  In (label r) signal_labels -> In (label r') signal_labels ->
  holds f r -> holds f r' -> r = r'.
Proof.
  intros Hr Hr'.
  destruct r; simpl in Hr; try (exfalso; intuition discriminate);
    destruct r'; simpl in Hr'; try (exfalso; intuition discriminate);
    simpl; intros H H'; try reflexivity; exfalso;
    repeat match goal with X : _ /\ _ |- _ => destruct X as [X _] end;
    rewrite H in H'; discriminate H'.
Qed.

(** C1: for every input, each of the ten labels is in the array the checks
    build exactly when its own predicate holds on the input; no label is
    there twice; and the array is the ordered list of the ten labels
    restricted to the ones that fired, which is the table's result. *)
Theorem C1_label_iff_predicate_in_rule_order (f : AnomalyFactors) :
  let tf := checkAnomalyCriteria f in
  (In "Route deviation" tf <-> (deviation_score f > 200)%js = true)
  /\ (In "Prolonged inactivity" tf
      <-> (time_since_last_activity f > 30)%js = true)
  /\ (In "Silent behavior" tf
      <-> signal_status f = "silent"
          /\ (time_since_last_activity f > 20)%js = true)
  /\ (In "Missing signal" tf <-> signal_status f = "missing")
  /\ (In "Distress signal" tf <-> signal_status f = "distress")
  /\ (In "Sudden altitude drop" tf <-> (altitude_change f < -15)%js = true)
  /\ (In "Heart rate anomaly" tf
      <-> (heart_rate f < 45)%js = true \/ (heart_rate f > 150)%js = true)
  /\ (In "Oxygen anomaly" tf <-> (oxygen_saturation f < 90)%js = true)
  /\ (In "Temperature anomaly" tf <-> (body_temperature f > 38.5)%js = true)
  /\ (In "Fall detected" tf <-> fall_detected f = true)
  /\ NoDup tf
  /\ tf = filter (fun l => existsb (String.eqb l) tf)
            ["Route deviation"; "Prolonged inactivity"; "Silent behavior";
             "Missing signal"; "Distress signal"; "Sudden altitude drop";
             "Heart rate anomaly"; "Oxygen anomaly"; "Temperature anomaly";
             "Fall detected"]
  /\ tf = triggered f.
Proof.
  intros tf.
  pose proof (in_checkAnomalyCriteria f) as Hin. fold tf in Hin.
  split; [exact (Hin RouteDeviation)|].
  split; [exact (Hin ProlongedInactivity)|].
  split; [exact (Hin SilentBehavior)|].
  split; [exact (Hin MissingSignal)|].
  split; [exact (Hin DistressSignal)|].
  split; [exact (Hin SuddenAltitudeDrop)|].
  split; [exact (Hin HeartRateAnomaly)|].
  split; [exact (Hin OxygenAnomaly)|].
  split; [exact (Hin TemperatureAnomaly)|].
  split; [exact (Hin FallDetected)|].
  assert (Htf : tf = triggered f) by apply checkAnomalyCriteria_triggered.
  split; [rewrite Htf; apply triggered_NoDup|].
  split; [|exact Htf].
  change (tf = filter (fun l => existsb (String.eqb l) tf) (map label rules)).
  rewrite filter_map_swap.
  rewrite Htf at 1. unfold triggered. f_equal.
  apply filter_ext. intros r.
  apply eq_iff_eq_true.
  rewrite mem_In, Hin. apply fires_holds.
Qed.

(** C9: the array of triggered factors never holds a label twice, the ten
    labels are pairwise distinct, and so the array has at most ten
    entries. *)
Theorem C9_no_duplicate_labels (f : AnomalyFactors) :
  NoDup (checkAnomalyCriteria f)
  /\ NoDup (map label rules)
  /\ List.length (map label rules) = 10
  /\ List.length (checkAnomalyCriteria f) <= 10.
Proof.
  rewrite checkAnomalyCriteria_triggered.
  split; [apply triggered_NoDup|].
  split.
  - apply Injective_map_NoDup; [intros r r'; apply label_injective|].
    apply rules_NoDup.
  - split; [reflexivity | apply triggered_length].
Qed.

(** C10: of "Silent behavior", "Missing signal" and "Distress signal" at
    most one is among the triggered factors: no two of them are there
    together, and the entries carrying one of the three number at most
    one. *)
Theorem C10_at_most_one_signal_label (f : AnomalyFactors) :
  let tf := checkAnomalyCriteria f in
  ~ (In "Silent behavior" tf /\ In "Missing signal" tf)
  /\ ~ (In "Silent behavior" tf /\ In "Distress signal" tf)
  /\ ~ (In "Missing signal" tf /\ In "Distress signal" tf)
  /\ List.length (filter is_signal_label tf) <= 1.
Proof.
  intros tf.
  pose proof (in_checkAnomalyCriteria f) as Hin. fold tf in Hin.
  assert (Hex : forall r r', In (label r) signal_labels ->
                  In (label r') signal_labels ->
                  In (label r) tf /\ In (label r') tf -> r = r').
  { intros r r' Hr Hr' [H H']. apply Hin in H. apply Hin in H'.
    exact (signal_rules_exclusive f r r' Hr Hr' H H'). }
  split; [intros H; apply (Hex SilentBehavior MissingSignal) in H;
          [discriminate H | simpl; tauto | simpl; tauto]|].
  split; [intros H; apply (Hex SilentBehavior DistressSignal) in H;
          [discriminate H | simpl; tauto | simpl; tauto]|].
  split; [intros H; apply (Hex MissingSignal DistressSignal) in H;
          [discriminate H | simpl; tauto | simpl; tauto]|].
  unfold tf. rewrite checkAnomalyCriteria_triggered, signal_count.
  destruct (fires f SilentBehavior) eqn:Es;
    destruct (fires f MissingSignal) eqn:Em;
    destruct (fires f DistressSignal) eqn:Ed; simpl; try lia; exfalso;
    rewrite ?fires_holds in *.
  - pose proof (signal_rules_exclusive f SilentBehavior MissingSignal) as X.
    simpl in X. assert (SilentBehavior = MissingSignal) by tauto. discriminate.
  - pose proof (signal_rules_exclusive f SilentBehavior MissingSignal) as X.
    simpl in X. assert (SilentBehavior = MissingSignal) by tauto. discriminate.
  - pose proof (signal_rules_exclusive f SilentBehavior DistressSignal) as X.
    simpl in X. assert (SilentBehavior = DistressSignal) by tauto. discriminate.
  - pose proof (signal_rules_exclusive f MissingSignal DistressSignal) as X.
    simpl in X. assert (MissingSignal = DistressSignal) by tauto. discriminate.
Qed.

End Labels.

(** ** The evaluation result (claims C2 to C8) *)

Section Evaluation.

Import Spec.

Ltac evaluated := intros; rewrite Evaluator_eq; reflexivity.

(** C2: the comparisons are strict. The default record with one field at
    its threshold, and the record with every field at its threshold (heart
    rate 45 or 150), evaluate to no triggered factor and a false flag; a
    field at its threshold never fires its rule whatever the other fields
    are; and a silent signal fires "Silent behavior" at 21 minutes of
    inactivity and not at 20. *)
Theorem C2_thresholds_are_strict :
  Forall (fun f => forall st random,
            Evaluator (setFactors st f) random
            = Some {| triggeredFactors := []; anomalyFlag := false |})
         (allBoundaries 45 :: allBoundaries 150 :: boundaryRecords)
  /\ (forall f,
        ~ In "Route deviation"
            (checkAnomalyCriteria (with_deviation_score f 200))
        /\ ~ In "Prolonged inactivity"
               (checkAnomalyCriteria (with_time_since_last_activity f 30))
        /\ ~ In "Sudden altitude drop"
               (checkAnomalyCriteria (with_altitude_change f (-15)))
        /\ ~ In "Heart rate anomaly"
               (checkAnomalyCriteria (with_heart_rate f 45))
        /\ ~ In "Heart rate anomaly"
               (checkAnomalyCriteria (with_heart_rate f 150))
        /\ ~ In "Oxygen anomaly"
               (checkAnomalyCriteria (with_oxygen_saturation f 90))
        /\ ~ In "Temperature anomaly"
               (checkAnomalyCriteria (with_body_temperature f 38.5)))
  /\ (forall f,
        ~ In "Silent behavior"
            (checkAnomalyCriteria
               (with_time_since_last_activity
                  (with_signal_status f "silent") 20))
        /\ In "Silent behavior"
             (checkAnomalyCriteria
                (with_time_since_last_activity
                   (with_signal_status f "silent") 21)))
  /\ (forall st random,
        Evaluator
          (setFactors st (with_time_since_last_activity
                            (with_signal_status defaultFactors "silent") 20))
          random
        = Some {| triggeredFactors := []; anomalyFlag := false |}
        /\ Evaluator
             (setFactors st (with_time_since_last_activity
                               (with_signal_status defaultFactors "silent") 21))
             random
           = Some {| triggeredFactors := ["Silent behavior"];
                     anomalyFlag := true |}).
Proof.
  split; [repeat (constructor; [evaluated|]); constructor|].
  split.
  - intros f.
    rewrite (in_checkAnomalyCriteria _ RouteDeviation),
      (in_checkAnomalyCriteria _ ProlongedInactivity),
      (in_checkAnomalyCriteria _ SuddenAltitudeDrop),
      !(in_checkAnomalyCriteria _ HeartRateAnomaly),
      (in_checkAnomalyCriteria _ OxygenAnomaly),
      (in_checkAnomalyCriteria _ TemperatureAnomaly).
    cbn. intuition discriminate.
  - split; [|split; evaluated].
    intros f. rewrite !(in_checkAnomalyCriteria _ SilentBehavior).
    cbn. intuition discriminate.
Qed.

(** C3: the anomaly flag of the evaluation is true exactly when the list of
    triggered factors is not empty, which is exactly when one of the ten
    predicates holds on the input. *)
Theorem C3_flag_iff_some_rule_fired (st : State) (random : number) :
  exists res,
    Evaluator st random = Some res
    /\ (anomalyFlag res = true <-> triggeredFactors res <> [])
    /\ (anomalyFlag res = true <-> exists r, holds (factors st) r).
Proof.
  eexists. split; [apply Evaluator_eq|]. cbn [anomalyFlag triggeredFactors].
  split; [apply flag_nonempty|]. rewrite flag_nonempty. split.
  - intros Hne.
    destruct (checkAnomalyCriteria (factors st)) as [|l tf] eqn:E;
      [now elim Hne|].
    assert (Hl : In l (triggered (factors st))).
    { rewrite <- checkAnomalyCriteria_triggered, E. now left. }
    unfold triggered in Hl. apply in_map_iff in Hl.
    destruct Hl as (r & _ & Hr). apply filter_In in Hr.
    exists r. apply fires_holds, Hr.
  - intros (r & Hr) E. apply in_checkAnomalyCriteria in Hr.
    rewrite E in Hr. exact Hr.
Qed.

(** C4: after [loadSampleData], whatever the state was before and whatever
    [Math.random] returns, the evaluation has the eight documented labels in
    the documented order and a true flag. *)
Theorem C4_sample_anomaly_record (st : State) (random : number) :
  factors (fst (loadSampleData st))
  = {| deviation_score := 250; time_since_last_activity := 35;
       signal_status := "silent"; altitude_change := -20;
       heart_rate := 160; oxygen_saturation := 85;
       body_temperature := 39.2; fall_detected := true |}
  /\ Evaluator (fst (loadSampleData st)) random
     = Some {| triggeredFactors :=
                 ["Route deviation"; "Prolonged inactivity";
                  "Silent behavior"; "Sudden altitude drop";
                  "Heart rate anomaly"; "Oxygen anomaly";
                  "Temperature anomaly"; "Fall detected"];
               anomalyFlag := true |}.
Proof. split; [reflexivity | evaluated]. Qed.

(** C5: when one rule's predicate holds on the input and no other rule's
    does, the triggered factors are that rule's label alone and the flag is
    true. *)
Theorem C5_isolated_rule_gives_its_label
  (st : State) (random : number) (r : Rule) :
  (forall r', holds (factors st) r' <-> r' = r) ->
  Evaluator st random
  = Some {| triggeredFactors := [label r]; anomalyFlag := true |}.
Proof.
  intros H. rewrite Evaluator_eq, checkAnomalyCriteria_triggered.
  assert (Hf : forall r', fires (factors st) r' = true <-> r' = r)
    by (intros r'; rewrite fires_holds; apply H).
  unfold triggered. cbn [rules filter].
  destruct r;
    repeat match goal with
    | |- context [fires ?f ?R] =>
        let E := fresh "E" in
        destruct (fires f R) eqn:E;
        [ apply Hf in E; try discriminate E
        | try (assert (fires f R = true) by (apply Hf; reflexivity);
               congruence) ]
    end;
    reflexivity.
Qed.

(** C6: on the component's initial state, and on any state whose factors
    are the defaults, the evaluation has no triggered factor and a false
    flag. *)
Theorem C6_default_factors_trigger_nothing (st : State) (random : number) :
  factors initialState
  = {| deviation_score := 0; time_since_last_activity := 0;
       signal_status := "normal"; altitude_change := 0;
       heart_rate := 70; oxygen_saturation := 98;
       body_temperature := 36.5; fall_detected := false |}
  /\ Evaluator initialState random
     = Some {| triggeredFactors := []; anomalyFlag := false |}
  /\ Evaluator (setFactors st defaultFactors) random
     = Some {| triggeredFactors := []; anomalyFlag := false |}.
Proof. split; [reflexivity | split; evaluated]. Qed.

(** C7: the evaluation is a function of the factors alone: two runs of the
    handler on the same factors give the same triggered factors and the
    same flag, whatever the stored prediction, the loading flag and the
    value of [Math.random] are in either run; and a second run on the state
    the first one left gives the result of the first. *)
Theorem C7_evaluation_depends_on_factors_only
  (f : AnomalyFactors) (p1 p2 : option PredictionResult) (l1 l2 : bool)
  (random1 random2 : number) :
  let st1 := {| factors := f; prediction := p1; isLoading := l1 |} in
  let st2 := {| factors := f; prediction := p2; isLoading := l2 |} in
  Evaluator st1 random1 = Evaluator st2 random2
  /\ Evaluator (fst (handlePredict st1 random1)) random2
     = Evaluator st1 random1.
Proof. intros st1 st2. rewrite !Evaluator_eq. split; reflexivity. Qed.

(** C8: on every state and every random value the [try] block runs to its
    end, the handler stores a prediction, sends the success toast and no
    error toast, and leaves the factors alone; an out-of-range value is
    compared like any other: a negative oxygen saturation fires the oxygen
    rule. *)
Theorem C8_evaluation_never_fails (st : State) (random : number) :
  (exists out, tryBlock st random = Normal out)
  /\ (exists res,
        Evaluator st random = Some res
        /\ triggeredFactors res = triggered (factors st)
        /\ (In "Oxygen anomaly" (triggeredFactors res)
            <-> (oxygen_saturation (factors st) < 90)%js = true))
  /\ snd (handlePredict st random)
     = [toast_success "Prediction completed successfully!"]
  /\ factors (fst (handlePredict st random)) = factors st
  /\ Evaluator (setFactors st (with_oxygen_saturation defaultFactors (-5)))
       random
     = Some {| triggeredFactors := ["Oxygen anomaly"]; anomalyFlag := true |}.
Proof.
  split.
  { destruct (tryBlock_normal st random) as (r & Hr & _).
    eexists. exact Hr. }
  split.
  { eexists. split; [apply Evaluator_eq|]. cbn [triggeredFactors].
    split; [apply checkAnomalyCriteria_triggered|].
    apply (in_checkAnomalyCriteria _ OxygenAnomaly). }
  split; [apply handlePredict_toasts|].
  split; [reflexivity | evaluated].
Qed.

(** The ten isolating records satisfy the hypothesis of C5, one per rule. *)
Lemma C5_isolating_records :
  Forall (fun r =>
            Evaluator (setFactors initialState (isolating r)) 0.5%float
            = Some {| triggeredFactors := [label r]; anomalyFlag := true |})
         rules.
Proof.
  repeat (constructor;
    [ apply C5_isolated_rule_gives_its_label;
      intros r'; destruct r'; cbv; split; intros X;
      solve [ reflexivity | split; reflexivity | left; reflexivity
            | discriminate X
            | destruct X as [X|X]; discriminate X
            | destruct X as [X _]; discriminate X ] |]).
  constructor.
Defined.

End Evaluation.

(** ** The page under its events *)

Section PageInvariant.

Import Spec Page.

(** The suspended call and its resumption make up the handler. *)
Lemma handlePredict_suspend_resume (st : State) (random : number) :
  handlePredict st random
  = handlePredict_resume (fst (handlePredict_suspend st))
      (snd (handlePredict_suspend st)) random.
Proof. reflexivity. Qed.

Lemma update_untouched (fld : Field) (f : AnomalyFactors) (value : number) :
  signal_status (update fld f value) = signal_status f
  /\ fall_detected (update fld f value) = fall_detected f.
Proof. destruct fld; split; reflexivity. Qed.

Lemma step_factors (pg : Page) (ev : Event) :
  factors (cells (step pg ev))
  = match ev with
    | Change fld value => update fld (factors (cells pg)) value
    | ClickLoadSample => factors (fst (loadSampleData initialState))
    | _ => factors (cells pg)
    end.
Proof.
  destruct ev as [fld value | | | random]; cbn [step]; try reflexivity.
  - destruct (isLoading (cells pg)); reflexivity.
  - destruct (suspended pg); reflexivity.
Qed.

(** Establish, preserve: a property of the factors that the inputs keep,
    and that the sample has when it is loaded, stays. *)
Lemma factors_invariant_step
  (P : AnomalyFactors -> Prop) (pg : Page) (ev : Event) :
  (forall fld f value, P f -> P (update fld f value)) ->
  (ev = ClickLoadSample -> P (factors (fst (loadSampleData initialState)))) ->
  factors_invariant P pg -> factors_invariant P (step pg ev).
Proof.
  intros Hupd Hsample (Hf & Hp & Hs).
  destruct ev as [fld value | | | random]; cbn [step].
  - repeat split; try assumption. now apply Hupd.
  - repeat split; try assumption. now apply Hsample.
  - destruct (isLoading (cells pg)); [repeat split; assumption|].
    unfold factors_invariant. cbn. repeat split; try assumption.
    apply Forall_app. split; [assumption|].
    constructor; [|constructor]. exists (factors (cells pg)). now split.
  - destruct (suspended pg) as [|tf rest] eqn:Es.
    + unfold factors_invariant. rewrite Es. repeat split; assumption.
    + unfold factors_invariant. cbn.
      split; [assumption|]. split; [now apply Forall_inv in Hs|].
      now apply Forall_inv_tail in Hs.
Qed.

Lemma factors_invariant_run
  (P : AnomalyFactors -> Prop) (events : list Event) (pg : Page) :
  (forall fld f value, P f -> P (update fld f value)) ->
  (In ClickLoadSample events ->
   P (factors (fst (loadSampleData initialState)))) ->
  factors_invariant P pg -> factors_invariant P (run pg events).
Proof.
  intros Hupd. revert pg.
  induction events as [|ev events IH]; intros pg Hsample H; [exact H|].
  cbn [run fold_left]. apply IH.
  - intros Hin. apply Hsample. now right.
  - apply factors_invariant_step; try assumption.
    intros ->. apply Hsample. now left.
Qed.

Lemma untouched_update (fld : Field) (f : AnomalyFactors) (value : number) :
  untouched_fields f -> untouched_fields (update fld f value).
Proof.
  unfold untouched_fields, initial_fields, sample_fields.
  destruct (update_untouched fld f value) as [-> ->]. exact (fun H => H).
Qed.

Lemma initial_update (fld : Field) (f : AnomalyFactors) (value : number) :
  initial_fields f -> initial_fields (update fld f value).
Proof.
  unfold initial_fields.
  destruct (update_untouched fld f value) as [-> ->]. exact (fun H => H).
Qed.

Lemma sample_update (fld : Field) (f : AnomalyFactors) (value : number) :
  sample_fields f -> sample_fields (update fld f value).
Proof.
  unfold sample_fields.
  destruct (update_untouched fld f value) as [-> ->]. exact (fun H => H).
Qed.

Lemma invariant_initial : invariant initialPage.
Proof.
  unfold invariant, factors_invariant, initialPage. cbn.
  repeat split; auto. left. split; reflexivity.
Qed.

Lemma invariant_step (pg : Page) (ev : Event) :
  invariant pg -> invariant (step pg ev).
Proof.
  intros (Hf & Hp & Hlen & Hload).
  split.
  { apply factors_invariant_step; try assumption.
    - apply untouched_update.
    - intros _. right. split; reflexivity. }
  destruct ev as [fld value | | | random]; cbn [step].
  - repeat split; assumption.
  - repeat split; assumption.
  - destruct (isLoading (cells pg)) eqn:El.
    + repeat split; try assumption. now rewrite El.
    + destruct (suspended pg) as [|tf rest] eqn:Es; [|discriminate Hload].
      cbn. repeat split; auto.
  - destruct (suspended pg) as [|tf rest] eqn:Es.
    + rewrite Es. repeat split; assumption.
    + destruct rest as [|tf' rest]; [|cbn in Hlen; lia].
      unfold well_formed. cbn. repeat split; auto.
Qed.

Lemma invariant_run (events : list Event) (pg : Page) :
  invariant pg -> invariant (run pg events).
Proof.
  revert pg. induction events as [|ev events IH]; intros pg H; [exact H|].
  apply IH, invariant_step, H.
Qed.

Lemma invariant_reachable (events : list Event) :
  invariant (run initialPage events).
Proof. apply invariant_run, invariant_initial. Qed.

Lemma run_app (pg : Page) (events events' : list Event) :
  run pg (events ++ events') = run (run pg events) events'.
Proof. apply fold_left_app. Qed.

Lemma untouched_no_missing_distress (f : AnomalyFactors) :
  untouched_fields f ->
  ~ In "Missing signal" (checkAnomalyCriteria f)
  /\ ~ In "Distress signal" (checkAnomalyCriteria f).
Proof.
  intros H.
  rewrite (in_checkAnomalyCriteria f MissingSignal),
    (in_checkAnomalyCriteria f DistressSignal). cbn.
  destruct H as [[E _]|[E _]]; rewrite E; split; discriminate.
Qed.

Lemma initial_fields_six_labels (f : AnomalyFactors) (l : string) :
  initial_fields f -> In l (checkAnomalyCriteria f) ->
  In l ["Route deviation"; "Prolonged inactivity"; "Sudden altitude drop";
        "Heart rate anomaly"; "Oxygen anomaly"; "Temperature anomaly"].
Proof.
  intros [Es Ef]. rewrite checkAnomalyCriteria_triggered. unfold triggered.
  rewrite in_map_iff. intros (r & <- & Hr).
  apply filter_In in Hr. destruct Hr as [_ Hr].
  apply fires_holds in Hr.
  destruct r; cbn in Hr |- *; try tauto; exfalso.
  - destruct Hr as [Hr _]. rewrite Es in Hr. discriminate Hr.
  - rewrite Es in Hr. discriminate Hr.
  - rewrite Es in Hr. discriminate Hr.
  - rewrite Ef in Hr. discriminate Hr.
Qed.

Lemma sample_fields_run (events : list Event) (pg : Page) :
  sample_fields (factors (cells pg)) ->
  sample_fields (factors (cells (run pg events))).
Proof.
  revert pg. induction events as [|ev events IH]; intros pg H; [exact H|].
  cbn [run fold_left]. apply IH. rewrite step_factors.
  destruct ev; try assumption.
  - now apply sample_update.
  - split; reflexivity.
Qed.

Lemma factors_run_same (events : list Event) (pg pg' : Page) :
  factors (cells pg) = factors (cells pg') ->
  factors (cells (run pg events)) = factors (cells (run pg' events)).
Proof.
  revert pg pg'.
  induction events as [|ev events IH]; intros pg pg' H; [exact H|].
  cbn [run fold_left]. apply IH. rewrite !step_factors, H. reflexivity.
Qed.

(** While a call is suspended and no timer ends, it stays the one suspended
    call, the flag stays set and the stored prediction stays. *)
Lemma suspended_run (edits : list Event) (pg : Page) (tf : list string) :
  forallb (fun ev => negb (is_timer ev)) edits = true ->
  isLoading (cells pg) = true -> suspended pg = [tf] ->
  isLoading (cells (run pg edits)) = true
  /\ suspended (run pg edits) = [tf]
  /\ prediction (cells (run pg edits)) = prediction (cells pg).
Proof.
  revert pg.
  induction edits as [|ev edits IH]; intros pg Hed Hl Hs; [now repeat split|].
  cbn [forallb] in Hed. apply andb_true_iff in Hed. destruct Hed as [Hev Hed].
  cbn [run fold_left].
  assert (H : isLoading (cells (step pg ev)) = true
              /\ suspended (step pg ev) = [tf]
              /\ prediction (cells (step pg ev)) = prediction (cells pg)).
  { destruct ev as [fld value | | | random]; cbn [step].
    - now repeat split.
    - now repeat split.
    - rewrite Hl. now repeat split.
    - discriminate Hev. }
  destruct H as (Hl' & Hs' & Hp').
  destruct (IH (step pg ev) Hed Hl' Hs') as (H1 & H2 & H3).
  repeat split; try assumption. now rewrite <- Hp'.
Qed.

Lemma mapi_from_fst {A : Type} (arr : list A) (start : nat) :
  map fst (mapi_from start arr) = seq start (List.length arr).
Proof.
  unfold mapi_from. revert start.
  induction arr as [|x arr IH]; intros start; [reflexivity|].
  cbn. now rewrite IH.
Qed.

Lemma mapi_from_snd {A : Type} (arr : list A) (start : nat) :
  map snd (mapi_from start arr) = arr.
Proof.
  unfold mapi_from. revert start.
  induction arr as [|x arr IH]; intros start; [reflexivity|].
  cbn. now rewrite IH.
Qed.

Lemma step_toasts (pg : Page) (ev : Event) :
  Forall success_toast (toasts pg) ->
  Forall success_toast (toasts (step pg ev)).
Proof.
  intros H. destruct ev as [fld value | | | random]; cbn [step].
  - exact H.
  - cbn. apply Forall_app. split; [exact H|].
    constructor; [now right | constructor].
  - destruct (isLoading (cells pg)); exact H.
  - destruct (suspended pg); [exact H|].
    cbn. apply Forall_app. split; [exact H|].
    constructor; [now left | constructor].
Qed.

End PageInvariant.

(** ** What the page does and never does *)

Section PageFacts.

Import Spec Page.

(** X1: however the page is used from its initial state, a stored
    prediction never lists "Missing signal" or "Distress signal": no handler
    gives [signal_status] either value. *)
Theorem X1_page_never_reports_missing_or_distress
  (events : list Event) (p : PredictionResult) :
  prediction (cells (run initialPage events)) = Some p ->
  ~ In "Missing signal" (triggered_factors p)
  /\ ~ In "Distress signal" (triggered_factors p).
Proof.
  intros Hp.
  destruct (invariant_reachable events) as ((_ & H & _) & _).
  rewrite Hp in H. destruct H as (f & Hf & ->).
  now apply untouched_no_missing_distress.
Qed.

Lemma X1_page_never_reports_missing_or_distress_witness :
  ~ In "Missing signal"
      ["Route deviation"; "Prolonged inactivity"; "Silent behavior";
       "Sudden altitude drop"; "Heart rate anomaly"; "Oxygen anomaly";
       "Temperature anomaly"; "Fall detected"]
  /\ ~ In "Distress signal"
        ["Route deviation"; "Prolonged inactivity"; "Silent behavior";
         "Sudden altitude drop"; "Heart rate anomaly"; "Oxygen anomaly";
         "Temperature anomaly"; "Fall detected"].
Proof.
  exact (X1_page_never_reports_missing_or_distress
           [ClickLoadSample; ClickPredict; TimerEnds 0.5%float] _ eq_refl).
Defined.

(** X2: after "Load Anomaly Sample", whatever is done to the page next, the
    factors keep a silent signal and a detected fall, so every later
    evaluation lists "Fall detected" and flags an anomaly. *)
Theorem X2_sample_fields_are_sticky (pg : Page) (events : list Event) :
  let pg' := run (step pg ClickLoadSample) events in
  sample_fields (factors (cells pg'))
  /\ forall random, exists res,
       Evaluator (cells pg') random = Some res
       /\ In "Fall detected" (triggeredFactors res)
       /\ anomalyFlag res = true.
Proof.
  intros pg'.
  assert (H : sample_fields (factors (cells pg'))).
  { apply sample_fields_run. split; reflexivity. }
  split; [exact H|]. intros random. eexists.
  split; [apply Evaluator_eq|]. cbn [triggeredFactors anomalyFlag].
  assert (Hin : In "Fall detected" (checkAnomalyCriteria (factors (cells pg')))).
  { apply (in_checkAnomalyCriteria _ FallDetected). apply H. }
  split; [exact Hin|]. apply flag_nonempty. intros E. now rewrite E in Hin.
Qed.

(** X3: as long as the sample is not loaded, the inputs of the form reach
    six of the ten labels only: a stored prediction lists none of "Silent
    behavior", "Missing signal", "Distress signal" and "Fall detected". *)
Theorem X3_form_edits_reach_six_labels
  (events : list Event) (p : PredictionResult) :
  ~ In ClickLoadSample events ->
  prediction (cells (run initialPage events)) = Some p ->
  incl (triggered_factors p)
    ["Route deviation"; "Prolonged inactivity"; "Sudden altitude drop";
     "Heart rate anomaly"; "Oxygen anomaly"; "Temperature anomaly"].
Proof.
  intros Hno Hp.
  assert (H : factors_invariant initial_fields (run initialPage events)).
  { apply factors_invariant_run.
    - apply initial_update.
    - intros Hin. now elim Hno.
    - repeat split; auto. }
  destruct H as (_ & H & _). rewrite Hp in H. destruct H as (f & Hf & ->).
  intros l. now apply initial_fields_six_labels.
Qed.

Lemma X3_form_edits_reach_six_labels_witness :
  incl ["Route deviation"; "Heart rate anomaly"]
    ["Route deviation"; "Prolonged inactivity"; "Sudden altitude drop";
     "Heart rate anomaly"; "Oxygen anomaly"; "Temperature anomaly"].
Proof.
  refine (X3_form_edits_reach_six_labels
            [Change Deviation 250; Change HeartRate 30; ClickPredict;
             TimerEnds 0.5]%float _ _ eq_refl).
  simpl. intros [H|[H|[H|[H|[]]]]]; discriminate H.
Defined.

(** X4: in every reachable page at most one call of [handlePredict] is
    suspended, and the "Detect Anomaly" button is disabled, and reads
    "Analyzing...", exactly while one is. *)
Theorem X4_one_prediction_at_a_time (events : list Event) :
  let pg := run initialPage events in
  List.length (suspended pg) <= 1
  /\ (predictDisabled (render (cells pg)) = true <-> suspended pg <> [])
  /\ (predictText (render (cells pg)) = "Analyzing..." <-> suspended pg <> []).
Proof.
  intros pg. destruct (invariant_reachable events) as (_ & _ & Hlen & Hl).
  fold pg in Hlen, Hl. split; [exact Hlen|]. cbn [render predictDisabled predictText].
  rewrite Hl. destruct (suspended pg); cbn; split; split;
    intros H; try discriminate H; try reflexivity; now elim H.
Qed.

(** X5: a prediction reports the factors of the click, not those of the
    moment it is shown: what is edited while the call is suspended changes
    the factors and not the prediction that the timer's end stores, and
    clicks on the disabled button start nothing. *)
Theorem X5_prediction_reports_factors_at_click
  (pg : Page) (edits : list Event) (random : number) :
  isLoading (cells pg) = false ->
  suspended pg = [] ->
  forallb (fun ev => negb (is_timer ev)) edits = true ->
  let pg' := run pg (ClickPredict :: edits ++ [TimerEnds random]) in
  (exists p, prediction (cells pg') = Some p
             /\ triggered_factors p = checkAnomalyCriteria (factors (cells pg)))
  /\ factors (cells pg') = factors (cells (run pg edits))
  /\ isLoading (cells pg') = false
  /\ suspended pg' = [].
Proof.
  intros Hl Hs Hed pg'. subst pg'.
  cbn [run fold_left]. fold (run (step pg ClickPredict) (edits ++ [TimerEnds random])).
  rewrite run_app.
  set (pg1 := step pg ClickPredict).
  assert (H1 : isLoading (cells pg1) = true
               /\ suspended pg1 = [checkAnomalyCriteria (factors (cells pg))]
               /\ factors (cells pg1) = factors (cells pg)).
  { unfold pg1. cbn [step]. rewrite Hl, Hs. now repeat split. }
  destruct H1 as (Hl1 & Hs1 & Hf1).
  destruct (suspended_run edits pg1 _ Hed Hl1 Hs1) as (Hl2 & Hs2 & _).
  pose proof (factors_run_same edits pg1 pg Hf1) as Hf2.
  set (pg2 := run pg1 edits) in *.
  cbn [run fold_left step]. rewrite Hs2. cbn.
  repeat split; try assumption. eexists. split; reflexivity.
Qed.

Lemma X5_prediction_reports_factors_at_click_witness :
  let pg' :=
    run initialPage
      (ClickPredict
       :: [Change HeartRate 200; ClickPredict; ClickLoadSample]%float
          ++ [TimerEnds 0.5%float]) in
  (exists p, prediction (cells pg') = Some p
             /\ triggered_factors p
                = checkAnomalyCriteria (factors (cells initialPage)))
  /\ factors (cells pg')
     = factors (cells (run initialPage
                         [Change HeartRate 200; ClickPredict;
                          ClickLoadSample]%float))
  /\ isLoading (cells pg') = false
  /\ suspended pg' = [].
Proof.
  exact (X5_prediction_reports_factors_at_click initialPage
           [Change HeartRate 200; ClickPredict; ClickLoadSample]%float
           0.5%float eq_refl eq_refl eq_refl).
Defined.

(** X6: in every reachable page the results card agrees with itself: either
    it is headed "Anomaly Detected", its badge has the error class and the
    triggered factors are shown, one badge each, in order, with distinct
    keys and distinct texts; or it is headed "Normal Behavior", its badge
    has the success class and no factor is shown. *)
Theorem X6_results_card_is_coherent (events : list Event) (v : ResultsView) :
  results (render (cells (run initialPage events))) = Some v ->
  (headline v = "Anomaly Detected"
   /\ badgeClass v = "text-white bg-ml-error"
   /\ exists p badges,
        prediction (cells (run initialPage events)) = Some p
        /\ factorBadges v = Some badges
        /\ badges <> []
        /\ map snd badges = triggered_factors p
        /\ NoDup (map fst badges)
        /\ NoDup (map snd badges))
  \/ (headline v = "Normal Behavior"
      /\ badgeClass v = "text-white bg-ml-success"
      /\ factorBadges v = None).
Proof.
  destruct (invariant_reachable events) as ((_ & Hc & _) & Hw & _).
  cbn [render results].
  destruct (prediction (cells (run initialPage events))) as [p|];
    [|discriminate].
  intros [= <-]. destruct Hw as (Hflag & Hlabel & _).
  destruct Hc as (f & _ & Hf).
  unfold renderResults. cbn [headline badgeClass factorBadges].
  rewrite Hlabel, Hflag.
  destruct (triggered_factors p) as [|l tf] eqn:E; cbn [List.length Nat.ltb Nat.leb].
  - right. now repeat split.
  - left. split; [reflexivity|]. split; [reflexivity|].
    exists p, (mapi_from 0 (l :: tf)).
    split; [reflexivity|]. split; [reflexivity|].
    split; [discriminate|].
    rewrite mapi_from_fst, mapi_from_snd.
    split; [now rewrite E|]. split; [apply seq_NoDup|].
    rewrite Hf, checkAnomalyCriteria_triggered. apply triggered_NoDup.
Qed.

Lemma X6_results_card_is_coherent_witness :
  exists v,
    results (render (cells (run initialPage
                              [Change HeartRate 30; ClickPredict;
                               TimerEnds 0.5]%float)))
    = Some v
    /\ headline v = "Anomaly Detected"
    /\ factorBadges v = Some [(0, "Heart rate anomaly")].
Proof.
  eexists. split; [reflexivity|].
  destruct (X6_results_card_is_coherent
              [Change HeartRate 30; ClickPredict; TimerEnds 0.5]%float
              _ eq_refl) as [(H & _)|(H & _)].
  - split; [exact H | reflexivity].
  - discriminate H.
Defined.

(** X7: no error toast is ever sent: every toast of every run of the page
    is one of the two success toasts. *)
Theorem X7_no_error_toast_is_ever_sent (events : list Event) :
  Forall success_toast (toasts (run initialPage events)).
Proof.
  assert (H : forall pg, Forall success_toast (toasts pg) ->
                Forall success_toast (toasts (run pg events))).
  { induction events as [|ev events IH]; intros pg Hpg; [exact Hpg|].
    cbn [run fold_left]. apply IH, step_toasts, Hpg. }
  apply H. constructor.
Qed.

(** X8: an input changes the labels of the rules that read its field and
    no other: with those labels left out, the triggered factors before and
    after the edit are the same list. *)
Theorem X8_edit_changes_only_its_labels
  (fld : Field) (f : AnomalyFactors) (value : number) :
  filter (fun l => negb (reads fld l))
    (checkAnomalyCriteria (update fld f value))
  = filter (fun l => negb (reads fld l)) (checkAnomalyCriteria f).
Proof.
  rewrite !checkAnomalyCriteria_triggered. unfold triggered.
  rewrite !filter_map_swap, !filter_twice. f_equal.
  apply filter_ext. intros r.
  destruct fld, r; reflexivity.
Qed.

(** X9: whatever happened before, when the timer ends no call is left
    suspended and the loading flag is down: the button is enabled again. *)
Theorem X9_timer_end_clears_loading (events : list Event) (random : number) :
  let pg := run initialPage (events ++ [TimerEnds random]) in
  suspended pg = []
  /\ isLoading (cells pg) = false
  /\ predictDisabled (render (cells pg)) = false.
Proof.
  intros pg. subst pg. rewrite run_app.
  destruct (invariant_reachable events) as (_ & _ & Hlen & Hl).
  cbn [run fold_left step].
  destruct (suspended (run initialPage events)) as [|tf rest] eqn:Es.
  - rewrite Es. cbn in Hl. cbn [render predictDisabled]. now repeat split.
  - destruct rest as [|tf' rest]; [|cbn in Hlen; lia].
    now repeat split.
Qed.

End PageFacts.

(** ** The order of the numbers and the thresholds *)

Section Thresholds.

Import Spec Page.

Lemma SFltb_trans (a b c : SpecFloat.spec_float) :
  SpecFloat.SFltb a b = true -> SpecFloat.SFltb b c = true ->
  SpecFloat.SFltb a c = true.
Proof.
  unfold SpecFloat.SFltb.
  destruct a as [sa|sa| |sa ma ea], b as [sb|sb| |sb mb eb],
    c as [sc|sc| |sc mc ec]; cbn;
    try discriminate; try reflexivity;
    repeat match goal with s : bool |- _ => destruct s end;
    try discriminate; try reflexivity.
  all: rewrite ?Pos.compare_cont_spec; unfold Pos.switch_Eq.
  all: destruct (Z.compare_spec ea eb), (Z.compare_spec eb ec),
         (Z.compare_spec ea ec); try discriminate; try reflexivity; try lia.
  all: destruct (Pos.compare_spec ma mb), (Pos.compare_spec mb mc),
         (Pos.compare_spec ma mc); cbn; try discriminate; try reflexivity;
         try lia.
Qed.

(** [<] on numbers is transitive, NaN and the infinities included. *)
Lemma number_lt_trans (x y z : number) :
  (x < y)%js = true -> (y < z)%js = true -> (x < z)%js = true.
Proof. unfold lt. rewrite !ltb_spec. apply SFltb_trans. Qed.

Lemma filter_none {A : Type} (p : A -> bool) (l : list A) :
  (forall x, p x = false) -> filter p l = [].
Proof.
  intros H. induction l as [|x l IH]; [reflexivity|].
  cbn [filter]. now rewrite H.
Qed.

Lemma reads_label (fld : Field) (l : string) :
  reads fld l = true -> exists r, l = label r /\ reads fld (label r) = true.
Proof.
  unfold reads. rewrite mem_In.
  destruct fld; cbn; intros H;
    repeat (destruct H as [H|H];
            [subst l;
             first [ now exists RouteDeviation
                   | now exists ProlongedInactivity
                   | now exists SilentBehavior
                   | now exists SuddenAltitudeDrop
                   | now exists HeartRateAnomaly
                   | now exists OxygenAnomaly
                   | now exists TemperatureAnomaly ]|]);
    now elim H.
Qed.

(** X10: a reading that moves further beyond its threshold keeps the alarm
    it had raised: if a label of the edited field is among the triggered
    factors and the new value is more extreme than the old one, the label
    is still there after the edit. *)
Theorem X10_more_extreme_reading_keeps_its_alarm
  (fld : Field) (f : AnomalyFactors) (value : number) (l : string) :
  more_extreme fld (field_value fld f) value = true ->
  reads fld l = true ->
  In l (checkAnomalyCriteria f) ->
  In l (checkAnomalyCriteria (update fld f value)).
Proof.
  intros Hm Hr Hin. apply reads_label in Hr. destruct Hr as (r & -> & Hr).
  rewrite in_checkAnomalyCriteria in Hin |- *.
  destruct fld, r; try discriminate Hr; cbn in Hm, Hin |- *.
  - exact (number_lt_trans _ _ _ Hin Hm).
  - exact (number_lt_trans _ _ _ Hin Hm).
  - destruct Hin as [Hs Hin]. split; [exact Hs|].
    exact (number_lt_trans _ _ _ Hin Hm).
  - unfold gt, lt in *. destruct Hin as [Hin|Hin].
    + rewrite Hin in Hm. left. exact (number_lt_trans _ _ _ Hm Hin).
    + destruct (PrimFloat.ltb (heart_rate f) 45) eqn:E.
      * left. exact (number_lt_trans _ _ _ Hm E).
      * right. exact (number_lt_trans _ _ _ Hin Hm).
  - exact (number_lt_trans _ _ _ Hm Hin).
  - exact (number_lt_trans _ _ _ Hin Hm).
  - exact (number_lt_trans _ _ _ Hm Hin).
Qed.

Lemma X10_more_extreme_reading_keeps_its_alarm_witness :
  In "Oxygen anomaly"
    (checkAnomalyCriteria
       (update Oxygen (with_oxygen_saturation defaultFactors 85) 60)).
Proof.
  refine (X10_more_extreme_reading_keeps_its_alarm Oxygen
            (with_oxygen_saturation defaultFactors 85) 60 "Oxygen anomaly"
            eq_refl eq_refl _).
  cbn. left. reflexivity.
Defined.

(** X11: the rules are not independent of each other: on a silent signal,
    "Prolonged inactivity" (more than 30 minutes) never comes without
    "Silent behavior" (more than 20). *)
Theorem X11_prolonged_inactivity_of_a_silent_signal_is_silent_behavior
  (f : AnomalyFactors) :
  signal_status f = "silent" ->
  In "Prolonged inactivity" (checkAnomalyCriteria f) ->
  In "Silent behavior" (checkAnomalyCriteria f).
Proof.
  intros Hs.
  rewrite (in_checkAnomalyCriteria f ProlongedInactivity),
    (in_checkAnomalyCriteria f SilentBehavior).
  cbn. intros H. split; [exact Hs|].
  apply (number_lt_trans 20 30 _); [reflexivity | exact H].
Qed.

Lemma X11_prolonged_inactivity_of_a_silent_signal_is_silent_behavior_witness :
  In "Silent behavior"
    (checkAnomalyCriteria (factors (fst (loadSampleData initialState)))).
Proof.
  refine (X11_prolonged_inactivity_of_a_silent_signal_is_silent_behavior
            (factors (fst (loadSampleData initialState))) eq_refl _).
  cbn. right. left. reflexivity.
Defined.

(** X12: a field that is not a number fires no rule: with NaN written by
    an input, none of the labels of its field is among the triggered
    factors. *)
Theorem X12_not_a_number_raises_no_alarm (fld : Field) (f : AnomalyFactors) :
  filter (reads fld) (checkAnomalyCriteria (update fld f nan)) = [].
Proof.
  rewrite checkAnomalyCriteria_triggered. unfold triggered.
  rewrite filter_map_swap, filter_twice.
  rewrite filter_none; [reflexivity|].
  intros r. destruct fld, r; cbn; rewrite ?andb_false_r; reflexivity.
Qed.

End Thresholds.

(** ** The embedding-vector version: what [handlePredict] accepts *)

Section Embeddings.

Import JSString EmbeddingDashboard.

Lemma trimStart_nil (s : text) :
  trimStart s = [] <-> forallb is_whitespace s = true.
Proof.
  induction s as [|c s IH]; cbn [trimStart forallb]; [tauto|].
  destruct (is_whitespace c); cbn [andb]; [exact IH|].
  split; discriminate.
Qed.

(** What [trimStart] leaves does not start with a blank. *)
Lemma trimStart_head (s : text) :
  match trimStart s with
  | [] => True
  | c :: _ => is_whitespace c = false
  end.
Proof.
  induction s as [|c s IH]; cbn [trimStart]; [exact I|].
  destruct (is_whitespace c) eqn:E; [exact IH | exact E].
Qed.

Lemma forallb_reverse {A : Type} (p : A -> bool) (l : list A) :
  forallb p (rev l) = forallb p l.
Proof.
  induction l as [|x l IH]; [reflexivity|].
  cbn [rev forallb]. rewrite forallb_app, IH. cbn [forallb].
  rewrite andb_true_r. apply andb_comm.
Qed.

Lemma trim_nil (s : text) : trim s = [] <-> blank s = true.
Proof.
  unfold trim, trimEnd, blank. rewrite <- trimStart_nil.
  split.
  - intros H. apply (f_equal (@rev N)) in H. rewrite rev_involutive in H.
    cbn [rev] in H. apply trimStart_nil in H. rewrite forallb_reverse in H.
    pose proof (trimStart_head s) as Hh.
    destruct (trimStart s) as [|c t]; [reflexivity|].
    cbn [forallb] in H. rewrite Hh in H. discriminate H.
  - intros ->. reflexivity.
Qed.

Lemma trim_blank_start (c : N) (s : text) :
  is_whitespace c = true -> trim (c :: s) = trim s.
Proof. intros H. unfold trim. cbn [trimStart]. now rewrite H. Qed.

Lemma split_not_nil (sep : N) (s : text) : split sep s <> [].
Proof.
  destruct s as [|c s]; cbn [split]; [discriminate|].
  destruct (N.eqb c sep); [discriminate|].
  destruct (split sep s); discriminate.
Qed.

Lemma split_without (sep : N) (s : text) :
  ~ In sep s -> split sep s = [s].
Proof.
  induction s as [|c s IH]; intros H; [reflexivity|].
  cbn [split]. destruct (N.eqb_spec c sep) as [->|_].
  - elim H. now left.
  - rewrite IH; [reflexivity|]. intros Hin. apply H. now right.
Qed.

Lemma split_app (sep : N) (piece s : text) :
  ~ In sep piece -> split sep (piece ++ sep :: s)%list = piece :: split sep s.
Proof.
  induction piece as [|c piece IH]; intros H; cbn [app split].
  - now rewrite N.eqb_refl.
  - destruct (N.eqb_spec c sep) as [->|_].
    + elim H. now left.
    + rewrite IH; [reflexivity|]. intros Hin. apply H. now right.
Qed.

Lemma split_blank_first (s : text) :
  split comma (32%N :: s)
  = match split comma s with
    | piece :: pieces => (32%N :: piece) :: pieces
    | [] => [[32%N]]
    end.
Proof. reflexivity. Qed.

(** [join] round-trips through [split]: each piece after the first comes
    back with the blank that follows the comma. *)
Lemma split_join (piece : text) (pieces : list text) :
  Forall (fun t => ~ In comma t) (piece :: pieces) ->
  split comma (join (literal ", ") (piece :: pieces))
  = piece :: map (cons 32%N) pieces.
Proof.
  revert piece. induction pieces as [|q pieces IH]; intros piece H.
  - cbn [join map]. apply split_without. now apply Forall_inv in H.
  - change (join (literal ", ") (piece :: q :: pieces))
      with (piece ++ comma :: 32%N :: join (literal ", ") (q :: pieces))%list.
    rewrite split_app by now apply Forall_inv in H.
    rewrite split_blank_first, IH by now apply Forall_inv_tail in H.
    reflexivity.
Qed.

Lemma embeddingArray_join
  (parseFloat : text -> number) (piece : text) (pieces : list text) :
  Forall (fun t => ~ In comma t) (piece :: pieces) ->
  embeddingArray parseFloat (join (literal ", ") (piece :: pieces))
  = map (fun t => parseFloat (trim t)) (piece :: pieces).
Proof.
  intros H. unfold embeddingArray. rewrite split_join by exact H.
  cbn [map]. f_equal. rewrite map_map. apply map_ext.
  intros t. now rewrite trim_blank_start.
Qed.

Lemma join_blank (sep piece : text) (pieces : list text) :
  blank (join sep (piece :: pieces)) = true -> blank piece = true.
Proof.
  destruct pieces as [|q pieces]; [exact (fun H => H)|].
  change (join sep (piece :: q :: pieces))
    with (piece ++ sep ++ join sep (q :: pieces))%list.
  unfold blank. rewrite forallb_app, andb_true_iff. tauto.
Qed.

Lemma handlePredict_blank
  (parseFloat : text -> number) (st : State) (random : number) :
  blank (embeddings st) = true ->
  handlePredict parseFloat st random
  = (st, [toast_error pleaseEnter]).
Proof.
  intros H. apply trim_nil in H. unfold handlePredict. now rewrite H.
Qed.

Lemma handlePredict_not_blank
  (parseFloat : text -> number) (st : State) (random : number) :
  blank (embeddings st) = false ->
  handlePredict parseFloat st random
  = if existsb isNaN (embeddingArray parseFloat (embeddings st))
    then ({| embeddings := embeddings st; prediction := prediction st;
             isLoading := false |},
          [toast_error invalidFormat])
    else ({| embeddings := embeddings st;
             prediction :=
               Some {| probability := (0.75 + random * 0.2)%float;
                       prediction_label :=
                         if ((0.75 + random * 0.2)%float > 0.5)%js
                         then "Positive" else "Negative";
                       confidence := (0.75 + random * 0.2)%float |};
             isLoading := false |},
          [toast_success completed]).
Proof.
  intros H. unfold handlePredict.
  destruct (trim (embeddings st)) as [|c t] eqn:E.
  - apply trim_nil in E. rewrite E in H. discriminate H.
  - unfold tryBlock. cbn [embeddings setIsLoading].
    destruct (existsb isNaN (embeddingArray parseFloat (embeddings st)));
      reflexivity.
Qed.

Lemma existsb_forallb {A : Type} (p : A -> bool) (l : list A) :
  existsb p l = negb (forallb (fun x => negb (p x)) l).
Proof.
  induction l as [|x l IH]; [reflexivity|].
  cbn [existsb forallb]. rewrite IH, negb_andb, negb_involutive. reflexivity.
Qed.

Lemma handlePredict_accepted
  (parseFloat : text -> number) (st : State) (random : number) :
  accepted parseFloat (embeddings st) = true ->
  handlePredict parseFloat st random
  = ({| embeddings := embeddings st;
        prediction :=
          Some {| probability := (0.75 + random * 0.2)%float;
                  prediction_label :=
                    if ((0.75 + random * 0.2)%float > 0.5)%js
                    then "Positive" else "Negative";
                  confidence := (0.75 + random * 0.2)%float |};
        isLoading := false |},
     [toast_success completed]).
Proof.
  unfold accepted. rewrite andb_true_iff, negb_true_iff. intros [Hb Hv].
  rewrite handlePredict_not_blank by exact Hb.
  now rewrite existsb_forallb, Hv.
Qed.

Lemma handlePredict_refused
  (parseFloat : text -> number) (st : State) (random : number) :
  accepted parseFloat (embeddings st) = false ->
  prediction (fst (handlePredict parseFloat st random)) = prediction st
  /\ embeddings (fst (handlePredict parseFloat st random)) = embeddings st
  /\ snd (handlePredict parseFloat st random)
     = [toast_error (if blank (embeddings st) then pleaseEnter
                     else invalidFormat)].
Proof.
  unfold accepted. intros H.
  destruct (blank (embeddings st)) eqn:Hb.
  - rewrite handlePredict_blank by exact Hb. now repeat split.
  - rewrite handlePredict_not_blank by exact Hb.
    cbn [negb andb] in H. rewrite existsb_forallb, H. now repeat split.
Qed.

(** X13: a blank input (empty, or blanks only) is refused before anything is
    touched: the state is returned as it was, with the one toast that asks
    for values; any other input sends another toast and leaves the loading
    flag down. *)
Theorem X13_blank_embeddings_are_refused
  (parseFloat : text -> number) (st : State) (random : number) :
  if blank (embeddings st)
  then handlePredict parseFloat st random = (st, [toast_error pleaseEnter])
  else snd (handlePredict parseFloat st random) <> [toast_error pleaseEnter]
       /\ isLoading (fst (handlePredict parseFloat st random)) = false.
Proof.
  destruct (blank (embeddings st)) eqn:H; [now apply handlePredict_blank|].
  rewrite handlePredict_not_blank by exact H.
  destruct (existsb isNaN _); split; try reflexivity; discriminate.
Qed.


(** X15: the stored prediction does not depend on the embedding values: two
    accepted inputs, whatever they are and whatever was stored before, give
    the same prediction for the same value of [Math.random()]. *)
Theorem X15_prediction_ignores_the_embeddings
  (parseFloat : text -> number) (st st' : State) (random : number) :
  accepted parseFloat (embeddings st) = true ->
  accepted parseFloat (embeddings st') = true ->
  prediction (fst (handlePredict parseFloat st random))
  = prediction (fst (handlePredict parseFloat st' random)).
Proof.
  intros H H'. now rewrite !handlePredict_accepted.
Qed.

Lemma X15_prediction_ignores_the_embeddings_witness :
  prediction
    (fst (handlePredict (fun _ => 1%float)
            (setEmbeddings initialState (literal "0.1, -0.5")) 0.5%float))
  = prediction
      (fst (handlePredict (fun _ => 1%float)
              {| embeddings := literal "7"; prediction := None;
                 isLoading := true |} 0.5%float)).
Proof.
  exact (X15_prediction_ignores_the_embeddings (fun _ => 1%float)
           (setEmbeddings initialState (literal "0.1, -0.5"))
           {| embeddings := literal "7"; prediction := None;
              isLoading := true |} 0.5%float eq_refl eq_refl).
Defined.

(** X16: if [parseFloat] gives NaN on the empty string, an input with a
    blank piece between its commas (a trailing comma, two commas in a row)
    is refused and the stored prediction is kept. *)
Theorem X16_blank_piece_is_refused
  (parseFloat : text -> number) (st : State) (random : number)
  (piece : text) :
  isNaN (parseFloat []) = true ->
  In piece (split comma (embeddings st)) ->
  blank piece = true ->
  accepted parseFloat (embeddings st) = false
  /\ prediction (fst (handlePredict parseFloat st random)) = prediction st
  /\ exists msg,
       snd (handlePredict parseFloat st random) = [toast_error msg].
Proof.
  intros Hnan Hin Hb.
  assert (H : accepted parseFloat (embeddings st) = false).
  { unfold accepted. apply andb_false_iff. right.
    apply not_true_is_false. intros Hall.
    rewrite forallb_forall in Hall.
    specialize (Hall (parseFloat (trim piece))).
    apply trim_nil in Hb. rewrite Hb, Hnan in Hall.
    assert (negb true = true) as X; [|discriminate X].
    apply Hall. unfold embeddingArray.
    rewrite <- Hb. apply (in_map (fun val => parseFloat (trim val))), Hin. }
  split; [exact H|].
  destruct (handlePredict_refused parseFloat st random H) as (Hp & _ & Ht).
  split; [exact Hp|]. eexists. exact Ht.
Qed.

Lemma X16_blank_piece_is_refused_witness :
  accepted (fun s => match s with [] => nan | _ => 1%float end)
    (literal "1,2,") = false
  /\ prediction
       (fst (handlePredict
               (fun s => match s with [] => nan | _ => 1%float end)
               (setEmbeddings initialState (literal "1,2,")) 0.5%float))
     = None
  /\ exists msg,
       snd (handlePredict
              (fun s => match s with [] => nan | _ => 1%float end)
              (setEmbeddings initialState (literal "1,2,")) 0.5%float)
       = [toast_error msg].
Proof.
  refine (X16_blank_piece_is_refused
            (fun s => match s with [] => nan | _ => 1%float end)
            (setEmbeddings initialState (literal "1,2,")) 0.5%float []
            eq_refl _ eq_refl).
  cbn. right. right. left. reflexivity.
Defined.

(** X17: the sample that [loadSampleData] writes is accepted by
    [handlePredict], as soon as [parseFloat] gives NaN on the empty string
    and each of the ten [toFixed(4)] strings holds no comma and parses to a
    number. *)
Theorem X17_sample_embeddings_are_accepted
  (parseFloat : text -> number) (toFixed : number -> nat -> text)
  (randoms : nat -> number) (st : State) (random : number) :
  isNaN (parseFloat []) = true ->
  (forall i, i < 10 ->
     ~ In comma (toFixed (randoms i * 2 - 1)%float 4)
     /\ isNaN (parseFloat (trim (toFixed (randoms i * 2 - 1)%float 4)))
        = false) ->
  let st' := fst (loadSampleData toFixed st randoms) in
  accepted parseFloat (embeddings st') = true
  /\ (exists p, prediction (fst (handlePredict parseFloat st' random)) = Some p)
  /\ snd (handlePredict parseFloat st' random) = [toast_success completed].
Proof.
  intros Hnan H st'.
  assert (Hacc : accepted parseFloat (embeddings st') = true).
  { unfold st'. cbn [loadSampleData fst setEmbeddings embeddings].
    unfold sampleEmbeddings.
    set (f := fun i => toFixed (randoms i * 2 - 1)%float 4).
    assert (Hall : Forall (fun t => ~ In comma t
                                    /\ isNaN (parseFloat (trim t)) = false)
                     (map f (seq 0 10))).
    { apply Forall_forall. intros t Ht. apply in_map_iff in Ht.
      destruct Ht as (i & <- & Hi). apply in_seq in Hi. apply H. lia. }
    change (seq 0 10) with (0 :: seq 1 9) in *. cbn [map] in *.
    unfold accepted. apply andb_true_iff. split.
    - apply negb_true_iff, not_true_is_false. intros Hb.
      apply join_blank, trim_nil in Hb.
      apply Forall_inv in Hall. destruct Hall as [_ Hall].
      rewrite Hb, Hnan in Hall. discriminate Hall.
    - rewrite embeddingArray_join.
      + apply forallb_forall. intros x Hx. apply in_map_iff in Hx.
        destruct Hx as (t & <- & Ht).
        rewrite Forall_forall in Hall. destruct (Hall t Ht) as [_ ->].
        reflexivity.
      + eapply Forall_impl; [|exact Hall]. intros t Ht. apply Ht. }
  split; [exact Hacc|].
  rewrite handlePredict_accepted by exact Hacc.
  split; [eexists|]; reflexivity.
Qed.

Lemma X17_sample_embeddings_are_accepted_witness :
  let parseFloat := fun s : text =>
    match s with [] => nan | _ => 0.5%float end in
  let toFixed := fun (_ : number) (_ : nat) => literal "0.5000" in
  let st' := fst (loadSampleData toFixed initialState (fun _ => 0.75%float)) in
  accepted parseFloat (embeddings st') = true
  /\ (exists p,
        prediction (fst (handlePredict parseFloat st' 0.5%float)) = Some p)
  /\ snd (handlePredict parseFloat st' 0.5%float) = [toast_success completed].
Proof.
  refine (X17_sample_embeddings_are_accepted
            (fun s => match s with [] => nan | _ => 0.5%float end)
            (fun _ _ => literal "0.5000") (fun _ => 0.75%float)
            initialState 0.5%float eq_refl _).
  intros i _. split; [|reflexivity].
  cbn. intros H.
  repeat (destruct H as [H|H]; [discriminate H|]). exact H.
Defined.

End Embeddings.
